(** * The admin dashboard's chart initializer ([static/admin.js])

    The script is one immediately-invoked arrow function.  It reads three
    properties of the global object, falls back to a fresh empty array for
    each falsy one, looks two elements up by id and, for each element that
    is there, calls the charting library's constructor with an object
    literal.

    The embedding is shallow: JavaScript values, a store (the properties of
    [window], the elements of [document] by id, and a heap of objects that
    values refer to by location), and a small monad that threads the store,
    collects the calls the script makes to the outside (the constructor of
    the charting library, the console) and carries a completion (normal or
    thrown).  The identifiers [window], [document] and [Chart] are taken to
    be bound as on the dashboard page; what the library's constructor does
    with its arguments is the library's business and is not modelled: a call
    to it is recorded and returns. *)

From Stdlib Require Import ZArith.
From Stdlib Require Import Floats.SpecFloat.
From stdpp Require Import base option strings list gmap.

Local Open Scope string_scope.

(** ** Values and objects *)

(** Heap locations: every object (array, element, ...) lives at one. *)
Abbreviation loc := positive (only parsing).

(** JavaScript numbers are IEEE 754 doubles. *)
Abbreviation number := spec_float (only parsing).

(** The double nearest to an integer, for number literals such as [10]. *)
Definition number_of_Z (z : Z) : number := binary_normalize 53 1024 z 0 false.

Inductive value : Type :=
  | VUndefined
  | VNull
  | VBool (b : bool)
  | VNumber (x : number)
  | VBigInt (z : Z)
  | VString (s : string)
  | VSymbol (description : string)
  | VObject (l : loc).

(** What a location holds.  Arrays hold their elements in order; elements of
    the page are opaque but for their tag; other objects are property
    lists. *)
Inductive object : Type :=
  | Array (elems : list value)
  | Element (tag : string)
  | Ordinary (props : list (string * value)).

(** ECMAScript's ToBoolean.  (The legacy [document.all] object, the one
    falsy object, is not among the values represented here.) *)
Definition to_boolean (v : value) : bool :=
  match v with
  | VUndefined => false
  | VNull => false
  | VBool b => b
  | VNumber (S754_zero _) => false
  | VNumber S754_nan => false
  | VNumber _ => true
  | VBigInt z => negb (z =? 0)%Z
  | VString s => match s with EmptyString => false | String _ _ => true end
  | VSymbol _ => true
  | VObject _ => true
  end.

(** ** The configuration object handed to the constructor

    The script builds it as an object literal in argument position and
    keeps no reference to it, so it is represented by value; the series it
    holds are JavaScript values, that is references to the arrays. *)

Module Dataset.
Record t : Type := make { label : string; data : value }.
End Dataset.

Module Data.
Record t : Type := make { labels : value; datasets : list Dataset.t }.
End Data.

Module Options.
Record t : Type := make { responsive : bool }.
End Options.

Module Config.
Record t : Type := make { type : string; data : Data.t; options : Options.t }.
End Config.

(** ** Store, calls to the outside, completions *)

Record state : Type := State {
  window : gmap string value;   (* what reading [window.name] yields, by name *)
  document : gmap string loc;   (* the page's elements, by id *)
  heap : gmap loc object
}.

Inductive event : Type :=
  | NewChart (ctx : value) (config : Config.t)   (* new Chart(ctx, config) *)
  | ConsoleLog (args : list value).

Inductive completion (A : Type) : Type :=
  | Normal (a : A)
  | Throw (exn : value).
Arguments Normal {A} a.
Arguments Throw {A} exn.

Record outcome (A : Type) : Type := Outcome {
  result : completion A;
  final : state;
  events : list event
}.
Arguments Outcome {A} _ _ _.
Arguments result {A} _.
Arguments final {A} _.
Arguments events {A} _.

Definition JS (A : Type) : Type := state → outcome A.

Definition js_ret {A} (a : A) : JS A := λ s, Outcome (Normal a) s [].

Definition js_bind {A B} (m : JS A) (k : A → JS B) : JS B := λ s,
  let r := m s in
  match result r with
  | Normal a =>
      let r' := k a (final r) in
      Outcome (result r') (final r') (events r ++ events r')
  | Throw exn => Outcome (Throw exn) (final r) (events r)
  end.

#[export] Instance JS_ret : MRet JS := @js_ret.
#[export] Instance JS_bind : MBind JS := λ A B k m, js_bind m k.

(** ** The operations the script uses *)

(** [window.name]: the property's value, [undefined] when there is none. *)
Definition get_global (name : string) : JS value := λ s,
  Outcome (Normal (default VUndefined (window s !! name))) s [].

(** An array literal: a new array at a location not in use. *)
Definition array_literal (elems : list value) : JS value := λ s,
  let l := fresh (dom (heap s)) in
  Outcome (Normal (VObject l))
          (State (window s) (document s) (<[l := Array elems]> (heap s))) [].

(** [a || b]: [b] is evaluated only when [a] is falsy. *)
Definition logical_or (a : value) (b : JS value) : JS value :=
  if to_boolean a then mret a else b.

(** [document.getElementById(id)]: the element, or [null]. *)
Definition getElementById (id : string) : JS value := λ s,
  Outcome (Normal (match document s !! id with
                   | Some l => VObject l
                   | None => VNull
                   end)) s [].

(** [new Chart(ctx, config)] as a statement: the call is recorded. *)
Definition new_Chart (ctx : value) (config : Config.t) : JS unit := λ s,
  Outcome (Normal tt) s [NewChart ctx config].

(** [window.name || []], the expression that initialises each of the
    script's three constants. *)
Definition global_or_empty (name : string) : JS value :=
  v ← get_global name;
  logical_or v (array_literal []).

(** ** The script *)

Definition chart_initializer : JS value :=
  labels ← global_or_empty "__labels";
  orderCounts ← global_or_empty "__orderCounts";
  revenues ← global_or_empty "__revenues";
  ordersCtx ← getElementById "ordersChart";
  (if to_boolean ordersCtx then
     new_Chart ordersCtx
       {| Config.type := "line";
          Config.data :=
            {| Data.labels := labels;
               Data.datasets :=
                 [ {| Dataset.label := "Orders"; Dataset.data := orderCounts |} ] |};
          Config.options := {| Options.responsive := true |} |}
   else mret tt);;
  revenueCtx ← getElementById "revenueChart";
  (if to_boolean revenueCtx then
     new_Chart revenueCtx
       {| Config.type := "bar";
          Config.data :=
            {| Data.labels := labels;
               Data.datasets :=
                 [ {| Dataset.label := "Revenue (KRW)"; Dataset.data := revenues |} ] |};
          Config.options := {| Options.responsive := true |} |}
   else mret tt);;
  mret VUndefined.

(** ** Vocabulary of the properties *)

(** The array a value refers to in a heap, if it refers to one. *)
Definition array_at (h : gmap loc object) (v : value) : option (list value) :=
  match v with
  | VObject l =>
      match h !! l with
      | Some (Array elems) => Some elems
      | _ => None
      end
  | _ => None
  end.

(** The two rendering targets, the id of the element of each and the type
    of the chart drawn on it. *)
Inductive target : Type := OrdersChart | RevenueChart.

Definition target_id (t : target) : string :=
  match t with
  | OrdersChart => "ordersChart"
  | RevenueChart => "revenueChart"
  end.

Definition chart_type (t : target) : string :=
  match t with
  | OrdersChart => "line"
  | RevenueChart => "bar"
  end.

Definition other (t : target) : target :=
  match t with
  | OrdersChart => RevenueChart
  | RevenueChart => OrdersChart
  end.

(** The constructor calls that build the chart of a target. *)
Definition is_chart_of (t : target) (e : event) : bool :=
  match e with
  | NewChart _ config => String.eqb (Config.type config) (chart_type t)
  | ConsoleLog _ => false
  end.

Definition charts_of (t : target) (evs : list event) : list event :=
  List.filter (is_chart_of t) evs.

Definition constructed (t : target) (evs : list event) : bool :=
  existsb (is_chart_of t) evs.

(** The three input series and the global each comes from. *)
Inductive series : Type := Labels | OrderCounts | Revenues.

Definition global_of (k : series) : string :=
  match k with
  | Labels => "__labels"
  | OrderCounts => "__orderCounts"
  | Revenues => "__revenues"
  end.


(** [binds name w h x h']: with globals [w] and heap [h],
    [window.name || []] evaluates to [x] and leaves the heap [h']: either
    the global is truthy and is the value, or a new empty array is. *)
Inductive binds (name : string) (w : gmap string value) (h : gmap loc object) :
    value → gmap loc object → Prop :=
  | binds_given v :
      w !! name = Some v →
      to_boolean v = true →
      binds name w h v h
  | binds_empty l :
      to_boolean (default VUndefined (w !! name)) = false →
      h !! l = None →
      binds name w h (VObject l) (<[l := Array []]> h).

(** The two object literals of the script, as functions of its constants. *)
Definition line_config (labels orderCounts : value) : Config.t :=
  {| Config.type := "line";
     Config.data :=
       {| Data.labels := labels;
          Data.datasets :=
            [ {| Dataset.label := "Orders"; Dataset.data := orderCounts |} ] |};
     Config.options := {| Options.responsive := true |} |}.

Definition bar_config (labels revenues : value) : Config.t :=
  {| Config.type := "bar";
     Config.data :=
       {| Data.labels := labels;
          Data.datasets :=
            [ {| Dataset.label := "Revenue (KRW)"; Dataset.data := revenues |} ] |};
     Config.options := {| Options.responsive := true |} |}.

(** The constructor calls of the script's two conditionals, from the
    page's elements and the script's three constants. *)
Definition chart_calls (d : gmap string loc) (labels orderCounts revenues : value) :
    list event :=
  match d !! "ordersChart" with
  | Some e => [NewChart (VObject e) (line_config labels orderCounts)]
  | None => []
  end ++
  match d !! "revenueChart" with
  | Some e => [NewChart (VObject e) (bar_config labels revenues)]
  | None => []
  end.

(** The page of the specification's example: the three series of two
    months and both canvases. *)
Definition example_page : state :=
  {| window :=
       {[ "__labels" := VObject 1%positive;
          "__orderCounts" := VObject 2%positive;
          "__revenues" := VObject 3%positive ]};
     document :=
       {[ "ordersChart" := 4%positive; "revenueChart" := 5%positive ]};
     heap :=
       {[ 1%positive := Array [VString "2024-01"; VString "2024-02"];
          2%positive := Array [VNumber (number_of_Z 10); VNumber (number_of_Z 20)];
          3%positive := Array [VNumber (number_of_Z 1000); VNumber (number_of_Z 2000)];
          4%positive := Element "canvas";
          5%positive := Element "canvas" ]} |}.

(** A page whose series do not match: two labels, one order count, and
    three revenues of which one is a string and one is not a number. *)
Definition mismatched_page : state :=
  {| window :=
       {[ "__labels" := VObject 1%positive;
          "__orderCounts" := VObject 2%positive;
          "__revenues" := VObject 3%positive ]};
     document :=
       {[ "ordersChart" := 4%positive; "revenueChart" := 5%positive ]};
     heap :=
       {[ 1%positive := Array [VString "2024-01"; VString "2024-02"];
          2%positive := Array [VNumber (number_of_Z 10)];
          3%positive := Array [VNumber (number_of_Z (-5)); VString "n/a"; VNumber S754_nan];
          4%positive := Element "canvas";
          5%positive := Element "canvas" ]} |}.

(** A page with the revenue canvas only, no label series at all and
    [null] for the order counts. *)
Definition sparse_page : state :=
  {| window :=
       {[ "__orderCounts" := VNull; "__revenues" := VObject 3%positive ]};
     document := {[ "revenueChart" := 5%positive ]};
     heap :=
       {[ 3%positive := Array [VNumber (number_of_Z 1000)];
          5%positive := Element "canvas" ]} |}.

(** The numeric series of each target's chart. *)
Definition data_series (t : target) : series :=
  match t with
  | OrdersChart => OrderCounts
  | RevenueChart => Revenues
  end.

(** [window.name || []] as a function of the globals and the heap: its
    value and the heap it leaves. *)
Definition fallback (name : string) (w : gmap string value) (h : gmap loc object) :
    value * gmap loc object :=
  if to_boolean (default VUndefined (w !! name))
  then (default VUndefined (w !! name), h)
  else (VObject (fresh (dom h)), <[fresh (dom h) := Array []]> h).

(** A page with both canvases and none of the three globals. *)
Definition bare_page : state :=
  {| window := ∅;
     document :=
       {[ "ordersChart" := 1%positive; "revenueChart" := 2%positive ]};
     heap := {[ 1%positive := Element "canvas"; 2%positive := Element "canvas" ]} |}.

(** ** Running the monad *)

Lemma run_ret {A} (a : A) s : mret (M := JS) a s = Outcome (Normal a) s [].
Proof. reflexivity. Qed.

Lemma run_bind {A B} (m : JS A) (k : A → JS B) s a s1 e1 c s2 e2 :
  m s = Outcome (Normal a) s1 e1 →
  k a s1 = Outcome c s2 e2 →
  (m ≫= k) s = Outcome c s2 (e1 ++ e2).
Proof.
  intros Hm Hk. unfold mbind, JS_bind, js_bind.
  rewrite Hm; cbn [result final events]. by rewrite Hk.
Qed.

Lemma run_getElementById_some id s e :
  document s !! id = Some e →
  getElementById id s = Outcome (Normal (VObject e)) s [].
Proof. intros H. unfold getElementById. by rewrite H. Qed.

Lemma run_getElementById_none id s :
  document s !! id = None →
  getElementById id s = Outcome (Normal VNull) s [].
Proof. intros H. unfold getElementById. by rewrite H. Qed.

(** One statement of a script after the other: the run of the first is
    found among the hypotheses or by evaluating it. *)
Ltac run_step :=
  eapply run_bind;
  [ first [ eassumption
          | apply run_getElementById_some; eassumption
          | apply run_getElementById_none; eassumption
          | reflexivity ]
  | ].

Ltac run_script := repeat run_step; apply run_ret.

(** ** The fallback expression *)

Lemma global_or_empty_binds name w h :
  ∃ x h',
    binds name w h x h' ∧
    ∀ d, global_or_empty name (State w d h) = Outcome (Normal x) (State w d h') [].
Proof.
  assert (h !! fresh (dom h) = None) as Hfresh
    by apply (not_elem_of_dom (D := gset positive)), is_fresh.
  destruct (to_boolean (default VUndefined (w !! name))) eqn:Hv.
  - destruct (w !! name) as [v|] eqn:Hw; [|done].
    exists v, h. split; [by apply binds_given|].
    intros d. unfold global_or_empty, get_global, logical_or.
    etransitivity; [eapply run_bind; [reflexivity|]|reflexivity].
    cbn [window]. rewrite Hw. simpl in Hv |- *. by rewrite Hv.
  - exists (VObject (fresh (dom h))), (<[fresh (dom h) := Array []]> h).
    split; [by apply binds_empty|].
    intros d. unfold global_or_empty, get_global, logical_or.
    etransitivity; [eapply run_bind; [reflexivity|]|reflexivity].
    cbn [window]. by rewrite Hv.
Qed.

Lemma binds_heap name w h x h' l o :
  binds name w h x h' → h !! l = Some o → h' !! l = Some o.
Proof.
  destruct 1 as [|l' _ Hl']; [done|]. intros Hl.
  rewrite lookup_insert_ne; [done|]. congruence.
Qed.

Lemma binds_heap_None name w h x h' l :
  binds name w h x h' → h' !! l = None → h !! l = None.
Proof.
  intros B Hl. destruct (h !! l) as [o|] eqn:E; [|done].
  rewrite (binds_heap _ _ _ _ _ _ _ B E) in Hl. done.
Qed.

Lemma binds_heap_new name w h x h' l o :
  binds name w h x h' → h' !! l = Some o → h !! l = None → o = Array [].
Proof.
  destruct 1 as [|l' _ Hl']; intros Ho Hl; [congruence|].
  destruct (decide (l' = l)) as [->|Hne].
  - rewrite lookup_insert_eq in Ho. congruence.
  - rewrite lookup_insert_ne in Ho by done. congruence.
Qed.

Lemma binds_truthy name w h x h' v :
  w !! name = Some v → to_boolean v = true →
  binds name w h x h' → x = v ∧ h' = h.
Proof.
  intros Hw Hv. destruct 1 as [v' Hw' _|l Hf _].
  - split; congruence.
  - rewrite Hw in Hf. simpl in Hf. congruence.
Qed.

Lemma binds_falsy name w h x h' :
  to_boolean (default VUndefined (w !! name)) = false →
  binds name w h x h' →
  ∃ l, x = VObject l ∧ h !! l = None ∧ h' !! l = Some (Array []).
Proof.
  intros Hf. destruct 1 as [v Hw Hv|l _ Hl].
  - rewrite Hw in Hf. simpl in Hf. congruence.
  - exists l. split; [done|]. split; [done|]. apply lookup_insert_eq.
Qed.

Lemma array_at_truthy h v xs : array_at h v = Some xs → to_boolean v = true.
Proof. by destruct v. Qed.

Lemma array_at_heap (h h' : gmap loc object) v xs :
  (∀ l o, h !! l = Some o → h' !! l = Some o) →
  array_at h v = Some xs → array_at h' v = Some xs.
Proof.
  intros Hsub. destruct v as [| | | | | | |l]; try done. simpl.
  destruct (h !! l) as [o|] eqn:E; [|done].
  by rewrite (Hsub _ _ E).
Qed.

(** ** The script, run *)

Lemma chart_initializer_run w h :
  ∃ labels orderCounts revenues h1 h2 h3,
    binds "__labels" w h labels h1 ∧
    binds "__orderCounts" w h1 orderCounts h2 ∧
    binds "__revenues" w h2 revenues h3 ∧
    ∀ d, chart_initializer (State w d h) =
           Outcome (Normal VUndefined) (State w d h3)
                   (chart_calls d labels orderCounts revenues).
Proof.
  destruct (global_or_empty_binds "__labels" w h) as (labels & h1 & B1 & E1).
  destruct (global_or_empty_binds "__orderCounts" w h1) as (orderCounts & h2 & B2 & E2).
  destruct (global_or_empty_binds "__revenues" w h2) as (revenues & h3 & B3 & E3).
  exists labels, orderCounts, revenues, h1, h2, h3.
  split; [done|]. split; [done|]. split; [done|].
  intros d. specialize (E1 d). specialize (E2 d). specialize (E3 d).
  unfold chart_initializer, chart_calls.
  destruct (d !! "ordersChart") as [eo|] eqn:Ho;
    destruct (d !! "revenueChart") as [er|] eqn:Hr;
    (etransitivity; [run_script | reflexivity]).
Qed.

Lemma state_eta s : s = State (window s) (document s) (heap s).
Proof. by destruct s. Qed.

(** The three constants of a run, each the outcome of the fallback
    expression in a heap between the initial and the final one. *)
Lemma bound_series s :
  ∃ chosen : series → value,
    chart_initializer s =
      Outcome (Normal VUndefined)
              (State (window s) (document s) (heap (final (chart_initializer s))))
              (chart_calls (document s)
                 (chosen Labels) (chosen OrderCounts) (chosen Revenues)) ∧
    ∀ k, ∃ h h',
      binds (global_of k) (window s) h (chosen k) h' ∧
      (∀ l o, heap s !! l = Some o → h !! l = Some o) ∧
      (∀ l, h !! l = None → heap s !! l = None) ∧
      (∀ l o, h' !! l = Some o → heap (final (chart_initializer s)) !! l = Some o).
Proof.
  destruct (chart_initializer_run (window s) (heap s))
    as (labels & orderCounts & revenues & h1 & h2 & h3 & B1 & B2 & B3 & E).
  specialize (E (document s)). rewrite <- state_eta in E.
  exists (λ k, match k with
               | Labels => labels
               | OrderCounts => orderCounts
               | Revenues => revenues
               end).
  rewrite E; cbn [final heap]. split; [done|].
  intros [].
  - exists (heap s), h1. split; [done|]. split; [done|]. split; [done|].
    intros l o Hl. eapply binds_heap; [exact B3|]. eapply binds_heap; [exact B2|]. done.
  - exists h1, h2. split; [done|]. split; [|split].
    + intros l o Hl. eapply binds_heap; [exact B1|done].
    + intros l Hl. eapply binds_heap_None; [exact B1|done].
    + intros l o Hl. eapply binds_heap; [exact B3|done].
  - exists h2, h3. split; [done|]. split; [|split].
    + intros l o Hl. eapply binds_heap; [exact B2|]. eapply binds_heap; [exact B1|done].
    + intros l Hl. eapply binds_heap_None; [exact B1|].
      eapply binds_heap_None; [exact B2|done].
    + done.
Qed.

(** What the script does to the store. *)
Lemma chart_initializer_frame s :
  result (chart_initializer s) = Normal VUndefined ∧
  window (final (chart_initializer s)) = window s ∧
  document (final (chart_initializer s)) = document s ∧
  (∀ l o, heap s !! l = Some o → heap (final (chart_initializer s)) !! l = Some o) ∧
  (∀ l o, heap s !! l = None →
          heap (final (chart_initializer s)) !! l = Some o → o = Array []).
Proof.
  destruct (chart_initializer_run (window s) (heap s))
    as (labels & orderCounts & revenues & h1 & h2 & h3 & B1 & B2 & B3 & E).
  specialize (E (document s)). rewrite <- state_eta in E.
  rewrite E; cbn [result final window document heap].
  split; [done|]. split; [done|]. split; [done|]. split.
  - intros l o Hl. eapply binds_heap; [exact B3|]. eapply binds_heap; [exact B2|].
    eapply binds_heap; [exact B1|done].
  - intros l o Hl Ho.
    destruct (h2 !! l) as [o2|] eqn:E2.
    + rewrite (binds_heap _ _ _ _ _ _ _ B3 E2) in Ho. injection Ho as <-.
      destruct (h1 !! l) as [o1|] eqn:E1.
      * rewrite (binds_heap _ _ _ _ _ _ _ B2 E1) in E2. injection E2 as <-.
        by eapply binds_heap_new; [exact B1| |].
      * by eapply binds_heap_new; [exact B2| |].
    + by eapply binds_heap_new; [exact B3| |].
Qed.

(** When the three globals are arrays there is no fallback: the constants
    are the globals and the store is left as it was. *)
Lemma run_with_arrays s vl vo vr xs ys zs :
  window s !! "__labels" = Some vl → array_at (heap s) vl = Some xs →
  window s !! "__orderCounts" = Some vo → array_at (heap s) vo = Some ys →
  window s !! "__revenues" = Some vr → array_at (heap s) vr = Some zs →
  chart_initializer s =
    Outcome (Normal VUndefined) s (chart_calls (document s) vl vo vr).
Proof.
  intros Wl Al Wo Ao Wr Ar.
  destruct (chart_initializer_run (window s) (heap s))
    as (labels & orderCounts & revenues & h1 & h2 & h3 & B1 & B2 & B3 & E).
  specialize (E (document s)). rewrite <- state_eta in E.
  destruct (binds_truthy _ _ _ _ _ _ Wl (array_at_truthy _ _ _ Al) B1) as [-> ->].
  destruct (binds_truthy _ _ _ _ _ _ Wo (array_at_truthy _ _ _ Ao) B2) as [-> ->].
  destruct (binds_truthy _ _ _ _ _ _ Wr (array_at_truthy _ _ _ Ar) B3) as [-> ->].
  by rewrite <- state_eta in E.
Qed.

(** The calls of the two conditionals, one by one. *)
Lemma in_chart_calls d labels orderCounts revenues ctx config :
  In (NewChart ctx config) (chart_calls d labels orderCounts revenues) →
  (∃ e, d !! "ordersChart" = Some e ∧ ctx = VObject e ∧
        config = line_config labels orderCounts) ∨
  (∃ e, d !! "revenueChart" = Some e ∧ ctx = VObject e ∧
        config = bar_config labels revenues).
Proof.
  unfold chart_calls. intros Hin. apply in_app_or in Hin as [Hin|Hin].
  - left. destruct (d !! "ordersChart") as [e|]; [|by destruct Hin].
    destruct Hin as [Heq|[]]. injection Heq as <- <-. by exists e.
  - right. destruct (d !! "revenueChart") as [e|]; [|by destruct Hin].
    destruct Hin as [Heq|[]]. injection Heq as <- <-. by exists e.
Qed.


Lemma chart_calls_both d labels orderCounts revenues eo er :
  d !! "ordersChart" = Some eo → d !! "revenueChart" = Some er →
  chart_calls d labels orderCounts revenues =
    [NewChart (VObject eo) (line_config labels orderCounts);
     NewChart (VObject er) (bar_config labels revenues)].
Proof. intros Ho Hr. unfold chart_calls. by rewrite Ho, Hr. Qed.

(** The calls for one target depend on that target's element only. *)
Lemma charts_of_chart_calls t d labels orderCounts revenues :
  charts_of t (chart_calls d labels orderCounts revenues) =
    match d !! target_id t with
    | Some e =>
        [NewChart (VObject e)
           match t with
           | OrdersChart => line_config labels orderCounts
           | RevenueChart => bar_config labels revenues
           end]
    | None => []
    end.
Proof.
  unfold chart_calls, charts_of.
  destruct t; cbn [target_id];
    destruct (d !! "ordersChart"), (d !! "revenueChart"); reflexivity.
Qed.

Lemma constructed_chart_calls t d labels orderCounts revenues :
  constructed t (chart_calls d labels orderCounts revenues) =
    match d !! target_id t with
    | Some _ => true
    | None => false
    end.
Proof.
  unfold chart_calls, constructed.
  destruct t; cbn [target_id];
    destruct (d !! "ordersChart"), (d !! "revenueChart"); reflexivity.
Qed.

(** ** Properties of the script *)

(** C1: when both target elements are present and the three globals are
    arrays of the same length, the script makes exactly two constructor
    calls: the first, on the [ordersChart] element, of type ["line"] with one
    dataset whose data is the order-count array; the second, on the
    [revenueChart] element, of type ["bar"] with one dataset whose data is the
    revenue array; both with the label array as labels and with
    [responsive: true]; and the three arrays hold what they held. *)
Theorem two_charts_when_both_targets_present s vl vo vr xs ys zs eo er :
  window s !! "__labels" = Some vl → array_at (heap s) vl = Some xs →
  window s !! "__orderCounts" = Some vo → array_at (heap s) vo = Some ys →
  window s !! "__revenues" = Some vr → array_at (heap s) vr = Some zs →
  length xs = length ys → length ys = length zs →
  document s !! "ordersChart" = Some eo →
  document s !! "revenueChart" = Some er →
  ∃ c1 c2 d1 d2,
    events (chart_initializer s) =
      [NewChart (VObject eo) c1; NewChart (VObject er) c2] ∧
    (Config.type c1 = "line" ∧
     Data.datasets (Config.data c1) = [d1] ∧ Dataset.data d1 = vo) ∧
    (Config.type c2 = "bar" ∧
     Data.datasets (Config.data c2) = [d2] ∧ Dataset.data d2 = vr) ∧
    (Data.labels (Config.data c1) = vl ∧ Data.labels (Config.data c2) = vl) ∧
    (Options.responsive (Config.options c1) = true ∧
     Options.responsive (Config.options c2) = true) ∧
    (array_at (heap (final (chart_initializer s))) vl = Some xs ∧
     array_at (heap (final (chart_initializer s))) vo = Some ys ∧
     array_at (heap (final (chart_initializer s))) vr = Some zs).
Proof.
  intros Wl Al Wo Ao Wr Ar _ _ Ho Hr.
  rewrite (run_with_arrays s vl vo vr xs ys zs) by done.
  cbn [events final].
  rewrite (chart_calls_both _ _ _ _ eo er) by done.
  eexists _, _, _, _. split; [reflexivity|]. cbn. done.
Qed.

Lemma two_charts_when_both_targets_present_witness :
  ∃ c1 c2 d1 d2,
    events (chart_initializer example_page) =
      [NewChart (VObject 4%positive) c1; NewChart (VObject 5%positive) c2] ∧
    (Config.type c1 = "line" ∧
     Data.datasets (Config.data c1) = [d1] ∧ Dataset.data d1 = VObject 2%positive) ∧
    (Config.type c2 = "bar" ∧
     Data.datasets (Config.data c2) = [d2] ∧ Dataset.data d2 = VObject 3%positive) ∧
    (Data.labels (Config.data c1) = VObject 1%positive ∧
     Data.labels (Config.data c2) = VObject 1%positive) ∧
    (Options.responsive (Config.options c1) = true ∧
     Options.responsive (Config.options c2) = true) ∧
    (array_at (heap (final (chart_initializer example_page))) (VObject 1%positive) =
       Some [VString "2024-01"; VString "2024-02"] ∧
     array_at (heap (final (chart_initializer example_page))) (VObject 2%positive) =
       Some [VNumber (number_of_Z 10); VNumber (number_of_Z 20)] ∧
     array_at (heap (final (chart_initializer example_page))) (VObject 3%positive) =
       Some [VNumber (number_of_Z 1000); VNumber (number_of_Z 2000)]).
Proof.
  apply (two_charts_when_both_targets_present example_page
           (VObject 1%positive) (VObject 2%positive) (VObject 3%positive));
    vm_compute; reflexivity.
Defined.

(** C4: with the labels ["2024-01"], ["2024-02"], the order counts [10],
    [20], the revenues [1000], [2000] and both target elements present, the
    script makes exactly two constructor calls, one line chart whose
    dataset's data is the array [10, 20] and one bar chart whose dataset's
    data is the array [1000, 2000], and the labels of both are the array of
    the two months. *)
Theorem example_two_months s vl vo vr eo er :
  window s !! "__labels" = Some vl →
  array_at (heap s) vl = Some [VString "2024-01"; VString "2024-02"] →
  window s !! "__orderCounts" = Some vo →
  array_at (heap s) vo = Some [VNumber (number_of_Z 10); VNumber (number_of_Z 20)] →
  window s !! "__revenues" = Some vr →
  array_at (heap s) vr = Some [VNumber (number_of_Z 1000); VNumber (number_of_Z 2000)] →
  document s !! "ordersChart" = Some eo →
  document s !! "revenueChart" = Some er →
  ∃ ctx1 c1 ctx2 c2,
    events (chart_initializer s) = [NewChart ctx1 c1; NewChart ctx2 c2] ∧
    Config.type c1 = "line" ∧
    map (λ d, array_at (heap (final (chart_initializer s))) (Dataset.data d))
        (Data.datasets (Config.data c1)) =
      [Some [VNumber (number_of_Z 10); VNumber (number_of_Z 20)]] ∧
    Config.type c2 = "bar" ∧
    map (λ d, array_at (heap (final (chart_initializer s))) (Dataset.data d))
        (Data.datasets (Config.data c2)) =
      [Some [VNumber (number_of_Z 1000); VNumber (number_of_Z 2000)]] ∧
    array_at (heap (final (chart_initializer s))) (Data.labels (Config.data c1)) =
      Some [VString "2024-01"; VString "2024-02"] ∧
    array_at (heap (final (chart_initializer s))) (Data.labels (Config.data c2)) =
      Some [VString "2024-01"; VString "2024-02"].
Proof.
  intros Wl Al Wo Ao Wr Ar Ho Hr.
  rewrite (run_with_arrays s vl vo vr _ _ _ Wl Al Wo Ao Wr Ar).
  cbn [events final].
  rewrite (chart_calls_both _ _ _ _ eo er) by done.
  eexists _, _, _, _. split; [reflexivity|].
  unfold line_config, bar_config.
  cbn [Config.type Config.data Data.labels Data.datasets Dataset.data map].
  rewrite Al, Ao, Ar. done.
Qed.

Lemma example_two_months_witness :
  ∃ ctx1 c1 ctx2 c2,
    events (chart_initializer example_page) = [NewChart ctx1 c1; NewChart ctx2 c2] ∧
    Config.type c1 = "line" ∧
    map (λ d, array_at (heap (final (chart_initializer example_page))) (Dataset.data d))
        (Data.datasets (Config.data c1)) =
      [Some [VNumber (number_of_Z 10); VNumber (number_of_Z 20)]] ∧
    Config.type c2 = "bar" ∧
    map (λ d, array_at (heap (final (chart_initializer example_page))) (Dataset.data d))
        (Data.datasets (Config.data c2)) =
      [Some [VNumber (number_of_Z 1000); VNumber (number_of_Z 2000)]] ∧
    array_at (heap (final (chart_initializer example_page)))
             (Data.labels (Config.data c1)) =
      Some [VString "2024-01"; VString "2024-02"] ∧
    array_at (heap (final (chart_initializer example_page)))
             (Data.labels (Config.data c2)) =
      Some [VString "2024-01"; VString "2024-02"].
Proof.
  apply (example_two_months example_page
           (VObject 1%positive) (VObject 2%positive) (VObject 3%positive)
           4%positive 5%positive);
    vm_compute; reflexivity.
Defined.

(** C5: whatever arrays the three globals are, of matching lengths or not
    and whatever they hold, the script checks and changes nothing: it
    completes and leaves the store as it was, and its calls are exactly the
    constructions for the elements that are present, the line chart on
    [ordersChart] with the label array itself as labels and the order-count
    array itself as data, then the bar chart on [revenueChart] with the label
    array itself and the revenue array itself; so every configuration handed
    to the constructor holds the input arrays themselves. *)
Theorem series_passed_through s vl vo vr xs ys zs :
  window s !! "__labels" = Some vl → array_at (heap s) vl = Some xs →
  window s !! "__orderCounts" = Some vo → array_at (heap s) vo = Some ys →
  window s !! "__revenues" = Some vr → array_at (heap s) vr = Some zs →
  result (chart_initializer s) = Normal VUndefined ∧
  final (chart_initializer s) = s ∧
  events (chart_initializer s) =
    (match document s !! "ordersChart" with
     | Some e =>
         [NewChart (VObject e)
            {| Config.type := "line";
               Config.data :=
                 {| Data.labels := vl;
                    Data.datasets :=
                      [ {| Dataset.label := "Orders"; Dataset.data := vo |} ] |};
               Config.options := {| Options.responsive := true |} |}]
     | None => []
     end ++
     match document s !! "revenueChart" with
     | Some e =>
         [NewChart (VObject e)
            {| Config.type := "bar";
               Config.data :=
                 {| Data.labels := vl;
                    Data.datasets :=
                      [ {| Dataset.label := "Revenue (KRW)"; Dataset.data := vr |} ] |};
               Config.options := {| Options.responsive := true |} |}]
     | None => []
     end)%list ∧
  (array_at (heap (final (chart_initializer s))) vl = Some xs ∧
   array_at (heap (final (chart_initializer s))) vo = Some ys ∧
   array_at (heap (final (chart_initializer s))) vr = Some zs) ∧
  ∀ ctx config,
    In (NewChart ctx config) (events (chart_initializer s)) →
    Data.labels (Config.data config) = vl ∧
    ((Config.type config = "line" ∧
      map Dataset.data (Data.datasets (Config.data config)) = [vo]) ∨
     (Config.type config = "bar" ∧
      map Dataset.data (Data.datasets (Config.data config)) = [vr])).
Proof.
  intros Wl Al Wo Ao Wr Ar.
  rewrite (run_with_arrays s vl vo vr xs ys zs) by done.
  cbn [result events final].
  split; [done|]. split; [done|]. split; [reflexivity|]. split; [done|].
  intros ctx config [(e & _ & _ & ->)|(e & _ & _ & ->)]%in_chart_calls;
    (split; [reflexivity|]); [left|right]; done.
Qed.

Lemma series_passed_through_witness :
  result (chart_initializer mismatched_page) = Normal VUndefined ∧
  final (chart_initializer mismatched_page) = mismatched_page ∧
  events (chart_initializer mismatched_page) =
    [NewChart (VObject 4%positive)
       {| Config.type := "line";
          Config.data :=
            {| Data.labels := VObject 1%positive;
               Data.datasets :=
                 [ {| Dataset.label := "Orders";
                      Dataset.data := VObject 2%positive |} ] |};
          Config.options := {| Options.responsive := true |} |};
     NewChart (VObject 5%positive)
       {| Config.type := "bar";
          Config.data :=
            {| Data.labels := VObject 1%positive;
               Data.datasets :=
                 [ {| Dataset.label := "Revenue (KRW)";
                      Dataset.data := VObject 3%positive |} ] |};
          Config.options := {| Options.responsive := true |} |}] ∧
  (array_at (heap (final (chart_initializer mismatched_page))) (VObject 1%positive) =
     Some [VString "2024-01"; VString "2024-02"] ∧
   array_at (heap (final (chart_initializer mismatched_page))) (VObject 2%positive) =
     Some [VNumber (number_of_Z 10)] ∧
   array_at (heap (final (chart_initializer mismatched_page))) (VObject 3%positive) =
     Some [VNumber (number_of_Z (-5)); VString "n/a"; VNumber S754_nan]) ∧
  ∀ ctx config,
    In (NewChart ctx config) (events (chart_initializer mismatched_page)) →
    Data.labels (Config.data config) = VObject 1%positive ∧
    ((Config.type config = "line" ∧
      map Dataset.data (Data.datasets (Config.data config)) = [VObject 2%positive]) ∨
     (Config.type config = "bar" ∧
      map Dataset.data (Data.datasets (Config.data config)) = [VObject 3%positive])).
Proof.
  apply (series_passed_through mismatched_page
           (VObject 1%positive) (VObject 2%positive) (VObject 3%positive)
           [VString "2024-01"; VString "2024-02"]
           [VNumber (number_of_Z 10)]
           [VNumber (number_of_Z (-5)); VString "n/a"; VNumber S754_nan]);
    vm_compute; reflexivity.
Defined.

(** C6: the script returns [undefined], leaves the properties of [window]
    and the elements of [document] as they were, leaves every object of the
    heap, and so each of the three input arrays, with what it held (the only
    new objects are the empty arrays of the fallback), and calls nothing but
    the chart constructor. *)
Theorem inputs_not_mutated s :
  result (chart_initializer s) = Normal VUndefined ∧
  window (final (chart_initializer s)) = window s ∧
  document (final (chart_initializer s)) = document s ∧
  (∀ l o, heap s !! l = Some o → heap (final (chart_initializer s)) !! l = Some o) ∧
  (∀ l o, heap s !! l = None →
          heap (final (chart_initializer s)) !! l = Some o → o = Array []) ∧
  (∀ k v xs, window s !! global_of k = Some v →
             array_at (heap s) v = Some xs →
             window (final (chart_initializer s)) !! global_of k = Some v ∧
             array_at (heap (final (chart_initializer s))) v = Some xs) ∧
  (∀ e, In e (events (chart_initializer s)) → ∃ ctx config, e = NewChart ctx config).
Proof.
  destruct (chart_initializer_frame s) as (Hr & Hw & Hd & Hold & Hnew).
  split; [done|]. split; [done|]. split; [done|]. split; [done|]. split; [done|].
  split.
  - intros k v xs Hk Hv. split; [by rewrite Hw|].
    by apply (array_at_heap (heap s)).
  - destruct (bound_series s) as (chosen & E & _). rewrite E; cbn [events].
    unfold chart_calls. intros e [He|He]%in_app_or.
    + destruct (document s !! "ordersChart"); [|by destruct He].
      destruct He as [<-|[]]. by eexists _, _.
    + destruct (document s !! "revenueChart"); [|by destruct He].
      destruct He as [<-|[]]. by eexists _, _.
Qed.

(** C8: the script is a total function of the store: its run completes,
    and in it the constructor is called at most twice (and nothing else is
    called). *)
Theorem terminates_within_two_constructions s :
  ∃ s' evs,
    chart_initializer s = Outcome (Normal VUndefined) s' evs ∧
    (length evs ≤ 2)%nat ∧
    (length (charts_of OrdersChart evs) + length (charts_of RevenueChart evs)
       = length evs)%nat.
Proof.
  destruct (bound_series s) as (chosen & E & _).
  eexists _, _. split; [exact E|].
  unfold chart_calls.
  destruct (document s !! "ordersChart"), (document s !! "revenueChart");
    cbn; split; lia.
Qed.

(** C10: every configuration the script hands to the constructor has
    exactly one dataset, labelled ["Orders"] in the line chart and
    ["Revenue (KRW)"] in the bar chart, whatever the store. *)
Theorem one_dataset_fixed_label s ctx config :
  In (NewChart ctx config) (events (chart_initializer s)) →
  ∃ d,
    Data.datasets (Config.data config) = [d] ∧
    ((Config.type config = "line" ∧ Dataset.label d = "Orders") ∨
     (Config.type config = "bar" ∧ Dataset.label d = "Revenue (KRW)")).
Proof.
  destruct (bound_series s) as (chosen & E & _). rewrite E; cbn [events].
  intros [(e & _ & _ & ->)|(e & _ & _ & ->)]%in_chart_calls;
    (eexists; split; [reflexivity|]); [left|right]; done.
Qed.

Lemma one_dataset_fixed_label_witness :
  ∃ d,
    [ {| Dataset.label := "Revenue (KRW)"; Dataset.data := VObject 3%positive |} ] = [d] ∧
    (("bar" = "line" ∧ Dataset.label d = "Orders") ∨
     ("bar" = "bar" ∧ Dataset.label d = "Revenue (KRW)")).
Proof.
  apply (one_dataset_fixed_label mismatched_page (VObject 5%positive)
           {| Config.type := "bar";
              Config.data :=
                {| Data.labels := VObject 1%positive;
                   Data.datasets :=
                     [ {| Dataset.label := "Revenue (KRW)";
                          Dataset.data := VObject 3%positive |} ] |};
              Config.options := {| Options.responsive := true |} |}).
  vm_compute. right. left. reflexivity.
Defined.

(** C2: when the element of a target is absent, the script completes
    without throwing, makes no constructor call for that target and logs
    nothing; the calls for the other target are what they are whether this
    element is on the page or not: one call on the other element when it is
    present, none when it is absent too. *)
Theorem absent_target_is_skipped s t :
  document s !! target_id t = None →
  result (chart_initializer s) = Normal VUndefined ∧
  charts_of t (events (chart_initializer s)) = [] ∧
  (∀ args, ¬ In (ConsoleLog args) (events (chart_initializer s))) ∧
  (∀ e, document s !! target_id (other t) = Some e →
        ∃ config, events (chart_initializer s) = [NewChart (VObject e) config] ∧
                  Config.type config = chart_type (other t)) ∧
  (document s !! target_id (other t) = None → events (chart_initializer s) = []) ∧
  (∀ d, d !! target_id (other t) = document s !! target_id (other t) →
        charts_of (other t)
          (events (chart_initializer (State (window s) d (heap s)))) =
        charts_of (other t) (events (chart_initializer s))).
Proof.
  intros Habs.
  destruct (chart_initializer_run (window s) (heap s))
    as (labels & orderCounts & revenues & h1 & h2 & h3 & _ & _ & _ & E).
  pose proof (E (document s)) as Es. rewrite <- state_eta in Es.
  rewrite Es; cbn [result events].
  split; [done|]. split; [|split; [|split; [|split]]].
  - by rewrite charts_of_chart_calls, Habs.
  - intros args Hin. unfold chart_calls in Hin.
    apply in_app_or in Hin as [Hin|Hin].
    + destruct (document s !! "ordersChart"); [|done]. by destruct Hin.
    + destruct (document s !! "revenueChart"); [|done]. by destruct Hin.
  - intros e He. unfold chart_calls.
    destruct t; cbn [target_id other chart_type] in *; rewrite Habs, He;
      eexists; (split; [reflexivity|done]).
  - intros Hnone. unfold chart_calls.
    destruct t; cbn [target_id other] in *; by rewrite Habs, Hnone.
  - intros d Hd. rewrite (E d); cbn [events].
    by rewrite !charts_of_chart_calls, Hd.
Qed.

Lemma absent_target_is_skipped_witness :
  result (chart_initializer sparse_page) = Normal VUndefined ∧
  charts_of OrdersChart (events (chart_initializer sparse_page)) = [] ∧
  (∀ args, ¬ In (ConsoleLog args) (events (chart_initializer sparse_page))) ∧
  (∀ e, document sparse_page !! "revenueChart" = Some e →
        ∃ config,
          events (chart_initializer sparse_page) = [NewChart (VObject e) config] ∧
          Config.type config = "bar") ∧
  (document sparse_page !! "revenueChart" = None →
   events (chart_initializer sparse_page) = []) ∧
  (∀ d, d !! "revenueChart" = document sparse_page !! "revenueChart" →
        charts_of RevenueChart
          (events (chart_initializer
                     (State (window sparse_page) d (heap sparse_page)))) =
        charts_of RevenueChart (events (chart_initializer sparse_page))).
Proof.
  apply (absent_target_is_skipped sparse_page OrdersChart).
  vm_compute. reflexivity.
Defined.

(** C7: whether the chart of a target is constructed is the same in any two
    runs in which that target's element is present in both or absent in
    both, whatever the other element and the three globals are in each. *)
Theorem construction_depends_on_own_target_only s1 s2 t :
  (is_Some (document s1 !! target_id t) ↔ is_Some (document s2 !! target_id t)) →
  constructed t (events (chart_initializer s1)) =
  constructed t (events (chart_initializer s2)).
Proof.
  intros Hsame.
  destruct (bound_series s1) as (chosen1 & E1 & _).
  destruct (bound_series s2) as (chosen2 & E2 & _).
  rewrite E1, E2; cbn [events]. rewrite !constructed_chart_calls.
  destruct (document s1 !! target_id t) as [e1|], (document s2 !! target_id t) as [e2|];
    try done.
  - destruct Hsame as [H _]. by destruct H as [? ?]; [eexists|].
  - destruct Hsame as [_ H]. by destruct H as [? ?]; [eexists|].
Qed.

Lemma construction_depends_on_own_target_only_witness :
  constructed RevenueChart (events (chart_initializer example_page)) =
  constructed RevenueChart (events (chart_initializer sparse_page)).
Proof.
  apply (construction_depends_on_own_target_only example_page sparse_page RevenueChart).
  vm_compute. split; intros _; eexists; reflexivity.
Defined.



(** ** The script on the pages above *)

(** On the page with no label series, [null] order counts and the revenue
    canvas only: one bar chart, labelled by a new empty array; the array
    made for the order counts is not used by any chart. *)
Example sparse_page_run :
  chart_initializer sparse_page =
    Outcome (Normal VUndefined)
      {| window := window sparse_page;
         document := document sparse_page;
         heap := <[7%positive := Array []]>
                   (<[6%positive := Array []]> (heap sparse_page)) |}
      [NewChart (VObject 5%positive)
         (bar_config (VObject 6%positive) (VObject 3%positive))].
Proof. vm_compute. reflexivity. Qed.

(** On the page of mismatched series both charts are built all the same,
    from the arrays as they are. *)
Example mismatched_page_run :
  chart_initializer mismatched_page =
    Outcome (Normal VUndefined) mismatched_page
      [NewChart (VObject 4%positive)
         (line_config (VObject 1%positive) (VObject 2%positive));
       NewChart (VObject 5%positive)
         (bar_config (VObject 1%positive) (VObject 3%positive))].
Proof. vm_compute. reflexivity. Qed.

(** Truthy values that are not arrays are passed on as they are. *)
Example truthy_non_array_passed_on :
  events (chart_initializer
            {| window := {[ "__labels" := VString "soon"; "__revenues" := VBool true ]};
               document := {[ "revenueChart" := 1%positive ]};
               heap := {[ 1%positive := Element "canvas" ]} |}) =
    [NewChart (VObject 1%positive) (bar_config (VString "soon") (VBool true))].
Proof. vm_compute. reflexivity. Qed.

(** ** The script as a function of the store *)

Lemma global_or_empty_fallback name w d h :
  global_or_empty name (State w d h) =
    Outcome (Normal (fallback name w h).1) (State w d (fallback name w h).2) [].
Proof.
  unfold global_or_empty, get_global, logical_or, fallback.
  etransitivity; [eapply run_bind; [reflexivity|]|reflexivity].
  cbn [window].
  by destruct (to_boolean (default VUndefined (w !! name))).
Qed.

Lemma fallback_binds name w h :
  binds name w h (fallback name w h).1 (fallback name w h).2.
Proof.
  unfold fallback.
  destruct (to_boolean (default VUndefined (w !! name))) eqn:Hv; cbn [fst snd].
  - destruct (w !! name) as [v|] eqn:Hw; [|done]. by apply binds_given.
  - apply binds_empty; [done|].
    apply (not_elem_of_dom (D := gset positive)), is_fresh.
Qed.

Lemma chart_initializer_fallback w d h :
  chart_initializer (State w d h) =
    Outcome (Normal VUndefined)
      (State w d
         (fallback "__revenues" w
            (fallback "__orderCounts" w (fallback "__labels" w h).2).2).2)
      (chart_calls d
         (fallback "__labels" w h).1
         (fallback "__orderCounts" w (fallback "__labels" w h).2).1
         (fallback "__revenues" w
            (fallback "__orderCounts" w (fallback "__labels" w h).2).2).1).
Proof.
  pose proof (global_or_empty_fallback "__labels" w d h) as E1.
  pose proof (global_or_empty_fallback "__orderCounts" w d
                (fallback "__labels" w h).2) as E2.
  pose proof (global_or_empty_fallback "__revenues" w d
                (fallback "__orderCounts" w (fallback "__labels" w h).2).2) as E3.
  unfold chart_initializer, chart_calls.
  destruct (d !! "ordersChart") as [eo|] eqn:Ho;
    destruct (d !! "revenueChart") as [er|] eqn:Hr;
    (etransitivity; [run_script | reflexivity]).
Qed.

Lemma fallback_window name w w' h :
  w' !! name = w !! name → fallback name w' h = fallback name w h.
Proof. intros H. unfold fallback. by rewrite H. Qed.

Lemma fallback_dom name w (h h' : gmap loc object) :
  dom h = dom h' →
  (fallback name w h).1 = (fallback name w h').1 ∧
  dom (fallback name w h).2 = dom (fallback name w h').2.
Proof.
  intros Hd. unfold fallback.
  destruct (to_boolean (default VUndefined (w !! name))); cbn [fst snd].
  - done.
  - rewrite !dom_insert_L, Hd. done.
Qed.

Lemma chart_calls_targets d d' labels orderCounts revenues :
  (∀ t, d' !! target_id t = d !! target_id t) →
  chart_calls d' labels orderCounts revenues =
  chart_calls d labels orderCounts revenues.
Proof.
  intros H. unfold chart_calls.
  by rewrite (H OrdersChart : d' !! "ordersChart" = _),
             (H RevenueChart : d' !! "revenueChart" = _).
Qed.

(** Two fallbacks taken one after the other, with nothing removed from the
    heap in between, make different arrays. *)
Lemma binds_twice_distinct n1 n2 w (h1 h1' h2 h2' : gmap loc object) x1 x2 :
  binds n1 w h1 x1 h1' →
  to_boolean (default VUndefined (w !! n1)) = false →
  (∀ l o, h1' !! l = Some o → h2 !! l = Some o) →
  binds n2 w h2 x2 h2' →
  to_boolean (default VUndefined (w !! n2)) = false →
  x1 ≠ x2.
Proof.
  intros B1 F1 Hsub B2 F2.
  destruct (binds_falsy _ _ _ _ _ F1 B1) as (l1 & -> & _ & Hl1).
  destruct (binds_falsy _ _ _ _ _ F2 B2) as (l2 & -> & Hl2 & _).
  intros [= ->]. rewrite (Hsub _ _ Hl1) in Hl2. done.
Qed.

(** ** Further properties of the script *)

(** X1: in every run, whatever the store, all the configurations handed to
    the constructor hold one and the same value as labels: the two charts
    share the label array, also when it is the empty array of the
    fallback. *)
Theorem labels_shared_between_charts s ctx1 c1 ctx2 c2 :
  In (NewChart ctx1 c1) (events (chart_initializer s)) →
  In (NewChart ctx2 c2) (events (chart_initializer s)) →
  Data.labels (Config.data c1) = Data.labels (Config.data c2).
Proof.
  destruct (bound_series s) as (chosen & E & _). rewrite E; cbn [events].
  intros [(? & _ & _ & ->)|(? & _ & _ & ->)]%in_chart_calls
         [(? & _ & _ & ->)|(? & _ & _ & ->)]%in_chart_calls; reflexivity.
Qed.

Lemma labels_shared_between_charts_witness :
  Data.labels (Config.data (line_config (VObject 3%positive) (VObject 4%positive))) =
  Data.labels (Config.data (bar_config (VObject 3%positive) (VObject 5%positive))).
Proof.
  apply (labels_shared_between_charts bare_page
           (VObject 1%positive) _ (VObject 2%positive) _).
  - vm_compute. left. reflexivity.
  - vm_compute. right. left. reflexivity.
Defined.

(** X2: when the label global and the global of a chart's numeric series
    are both falsy, the chart gets two different empty arrays: the data of
    its dataset is not the array that is its labels. *)
Theorem fallback_labels_not_shared_with_data s t ctx config d :
  In (NewChart ctx config) (events (chart_initializer s)) →
  Config.type config = chart_type t →
  to_boolean (default VUndefined (window s !! global_of Labels)) = false →
  to_boolean (default VUndefined (window s !! global_of (data_series t))) = false →
  In d (Data.datasets (Config.data config)) →
  Dataset.data d ≠ Data.labels (Config.data config).
Proof.
  rewrite (state_eta s) at 1. rewrite chart_initializer_fallback; cbn [events].
  set (f1 := fallback "__labels" (window s) (heap s)).
  set (f2 := fallback "__orderCounts" (window s) f1.2).
  set (f3 := fallback "__revenues" (window s) f2.2).
  pose proof (fallback_binds "__labels" (window s) (heap s)) as B1.
  pose proof (fallback_binds "__orderCounts" (window s) f1.2) as B2.
  pose proof (fallback_binds "__revenues" (window s) f2.2) as B3.
  fold f1 in B1. fold f2 in B2. fold f3 in B3.
  intros [(e & _ & _ & ->)|(e & _ & _ & ->)]%in_chart_calls Hty FL FD Hd;
    destruct t; try discriminate Hty;
    cbn [global_of data_series] in FL, FD;
    destruct Hd as [<-|[]]; cbn [line_config bar_config Config.data Data.labels
                                 Dataset.data];
    apply not_eq_sym.
  - eapply (binds_twice_distinct _ _ _ _ _ _ _ _ _ B1 FL); [|exact B2|exact FD].
    done.
  - eapply (binds_twice_distinct _ _ _ _ _ _ _ _ _ B1 FL); [|exact B3|exact FD].
    intros l o Hl. by eapply binds_heap; [exact B2|].
Qed.

Lemma fallback_labels_not_shared_with_data_witness :
  VObject 4%positive ≠ VObject 3%positive.
Proof.
  apply (fallback_labels_not_shared_with_data bare_page OrdersChart
           (VObject 1%positive)
           (line_config (VObject 3%positive) (VObject 4%positive))
           {| Dataset.label := "Orders"; Dataset.data := VObject 4%positive |}).
  - vm_compute. left. reflexivity.
  - reflexivity.
  - vm_compute. reflexivity.
  - vm_compute. reflexivity.
  - left. reflexivity.
Defined.

(** X3: when the order-count and the revenue globals are both falsy, the
    line chart and the bar chart get different empty arrays as data. *)
Theorem fallback_data_not_shared_between_charts s ctx1 c1 d1 ctx2 c2 d2 :
  In (NewChart ctx1 c1) (events (chart_initializer s)) →
  Config.type c1 = "line" →
  In (NewChart ctx2 c2) (events (chart_initializer s)) →
  Config.type c2 = "bar" →
  to_boolean (default VUndefined (window s !! "__orderCounts")) = false →
  to_boolean (default VUndefined (window s !! "__revenues")) = false →
  In d1 (Data.datasets (Config.data c1)) →
  In d2 (Data.datasets (Config.data c2)) →
  Dataset.data d1 ≠ Dataset.data d2.
Proof.
  rewrite (state_eta s) at 1 2. rewrite chart_initializer_fallback; cbn [events].
  set (f1 := fallback "__labels" (window s) (heap s)).
  set (f2 := fallback "__orderCounts" (window s) f1.2).
  set (f3 := fallback "__revenues" (window s) f2.2).
  pose proof (fallback_binds "__orderCounts" (window s) f1.2) as B2.
  pose proof (fallback_binds "__revenues" (window s) f2.2) as B3.
  fold f2 in B2. fold f3 in B3.
  intros [(? & _ & _ & ->)|(? & _ & _ & ->)]%in_chart_calls Hty1
         [(? & _ & _ & ->)|(? & _ & _ & ->)]%in_chart_calls Hty2 FO FR Hd1 Hd2;
    try discriminate Hty1; try discriminate Hty2.
  destruct Hd1 as [<-|[]]. destruct Hd2 as [<-|[]].
  cbn [Dataset.data].
  by eapply (binds_twice_distinct _ _ _ _ _ _ _ _ _ B2 FO); [|exact B3|exact FR].
Qed.

Lemma fallback_data_not_shared_between_charts_witness :
  VObject 4%positive ≠ VObject 5%positive.
Proof.
  apply (fallback_data_not_shared_between_charts bare_page
           (VObject 1%positive)
           (line_config (VObject 3%positive) (VObject 4%positive))
           {| Dataset.label := "Orders"; Dataset.data := VObject 4%positive |}
           (VObject 2%positive)
           (bar_config (VObject 3%positive) (VObject 5%positive))
           {| Dataset.label := "Revenue (KRW)"; Dataset.data := VObject 5%positive |}).
  - vm_compute. left. reflexivity.
  - reflexivity.
  - vm_compute. right. left. reflexivity.
  - reflexivity.
  - vm_compute. reflexivity.
  - vm_compute. reflexivity.
  - left. reflexivity.
  - left. reflexivity.
Defined.

(** X6: of the store the script reads the three globals and the two
    elements only: two stores with the same heap that agree on these make
    the same calls and leave the same heap, whatever else [window] and
    [document] hold. *)
Theorem reads_only_its_globals_and_targets w w' d d' h :
  (∀ k, w' !! global_of k = w !! global_of k) →
  (∀ t, d' !! target_id t = d !! target_id t) →
  events (chart_initializer (State w' d' h)) = events (chart_initializer (State w d h)) ∧
  heap (final (chart_initializer (State w' d' h))) =
  heap (final (chart_initializer (State w d h))).
Proof.
  intros Hw Hd. rewrite !chart_initializer_fallback; cbn [events final heap].
  rewrite !(fallback_window "__labels" w w') by apply (Hw Labels).
  rewrite !(fallback_window "__orderCounts" w w') by apply (Hw OrderCounts).
  rewrite !(fallback_window "__revenues" w w') by apply (Hw Revenues).
  split; [|done]. by apply chart_calls_targets.
Qed.

Lemma reads_only_its_globals_and_targets_witness :
  events (chart_initializer
            (State (<["__theme" := VString "dark"]> (window example_page))
                   (<["footer" := 9%positive]> (document example_page))
                   (heap example_page))) =
  events (chart_initializer
            (State (window example_page) (document example_page) (heap example_page))) ∧
  heap (final (chart_initializer
                 (State (<["__theme" := VString "dark"]> (window example_page))
                        (<["footer" := 9%positive]> (document example_page))
                        (heap example_page)))) =
  heap (final (chart_initializer
                 (State (window example_page) (document example_page)
                        (heap example_page)))).
Proof.
  apply (reads_only_its_globals_and_targets
           (window example_page) (<["__theme" := VString "dark"]> (window example_page))
           (document example_page) (<["footer" := 9%positive]> (document example_page))
           (heap example_page)).
  - intros []; vm_compute; reflexivity.
  - intros []; vm_compute; reflexivity.
Defined.

(** X7: the script never looks inside an object: with the same globals and
    elements, two heaps that have objects at the same locations, whatever
    the objects are, give the same calls. *)
Theorem never_reads_heap_objects w d (h h' : gmap loc object) :
  dom h = dom h' →
  events (chart_initializer (State w d h)) = events (chart_initializer (State w d h')) ∧
  dom (heap (final (chart_initializer (State w d h)))) =
  dom (heap (final (chart_initializer (State w d h')))).
Proof.
  intros Hd. rewrite !chart_initializer_fallback; cbn [events final heap].
  destruct (fallback_dom "__labels" w h h' Hd) as [V1 D1].
  destruct (fallback_dom "__orderCounts" w _ _ D1) as [V2 D2].
  destruct (fallback_dom "__revenues" w _ _ D2) as [V3 D3].
  by rewrite V1, V2, V3.
Qed.

Lemma never_reads_heap_objects_witness :
  events (chart_initializer
            (State (window example_page) (document example_page) (heap example_page))) =
  events (chart_initializer
            (State (window example_page) (document example_page) (heap mismatched_page))) ∧
  dom (heap (final (chart_initializer
            (State (window example_page) (document example_page) (heap example_page))))) =
  dom (heap (final (chart_initializer
            (State (window example_page) (document example_page) (heap mismatched_page))))).
Proof.
  apply (never_reads_heap_objects (window example_page) (document example_page)
           (heap example_page) (heap mismatched_page)).
  vm_compute. reflexivity.
Defined.

(** X8: the line chart does not depend on the revenue global or on the
    revenue element: two stores with the same heap that agree on the label
    and order-count globals and on the [ordersChart] element make the same
    call, or none, for the orders chart. *)
Theorem orders_chart_independent_of_revenues w w' d d' h :
  w' !! "__labels" = w !! "__labels" →
  w' !! "__orderCounts" = w !! "__orderCounts" →
  d' !! "ordersChart" = d !! "ordersChart" →
  charts_of OrdersChart (events (chart_initializer (State w' d' h))) =
  charts_of OrdersChart (events (chart_initializer (State w d h))).
Proof.
  intros Hl Ho Hd. rewrite !chart_initializer_fallback; cbn [events].
  rewrite !charts_of_chart_calls; cbn [target_id]. rewrite Hd.
  rewrite !(fallback_window "__labels" w w') by done.
  by rewrite !(fallback_window "__orderCounts" w w') by done.
Qed.

Lemma orders_chart_independent_of_revenues_witness :
  charts_of OrdersChart
    (events (chart_initializer
               (State (delete "__revenues" (window example_page))
                      (delete "revenueChart" (document example_page))
                      (heap example_page)))) =
  charts_of OrdersChart
    (events (chart_initializer
               (State (window example_page) (document example_page)
                      (heap example_page)))).
Proof.
  apply (orders_chart_independent_of_revenues
           (window example_page) (delete "__revenues" (window example_page))
           (document example_page) (delete "revenueChart" (document example_page))
           (heap example_page));
    vm_compute; reflexivity.
Defined.

(** X9: every constructor call of a run draws on an element of the page,
    never on [null]: the line chart on the element whose id is
    [ordersChart], the bar chart on the one whose id is [revenueChart]. *)
Theorem charts_drawn_on_their_elements s ctx config :
  In (NewChart ctx config) (events (chart_initializer s)) →
  ∃ t e,
    document s !! target_id t = Some e ∧
    ctx = VObject e ∧
    Config.type config = chart_type t.
Proof.
  destruct (bound_series s) as (chosen & E & _). rewrite E; cbn [events].
  intros [(e & He & -> & ->)|(e & He & -> & ->)]%in_chart_calls.
  - by exists OrdersChart, e.
  - by exists RevenueChart, e.
Qed.

Lemma charts_drawn_on_their_elements_witness :
  ∃ t e,
    document sparse_page !! target_id t = Some e ∧
    VObject 5%positive = VObject e ∧
    Config.type (bar_config (VObject 6%positive) (VObject 3%positive)) = chart_type t.
Proof.
  apply (charts_drawn_on_their_elements sparse_page).
  vm_compute. left. reflexivity.
Defined.

(** X10: the calls of a run are the calls for the orders chart followed by
    those for the revenue chart, and for each target there is one call if
    its element is on the page and none otherwise: the orders chart is
    always constructed first and no chart twice. *)
Theorem orders_chart_first_and_once s :
  events (chart_initializer s) =
    (charts_of OrdersChart (events (chart_initializer s)) ++
     charts_of RevenueChart (events (chart_initializer s)))%list ∧
  ∀ t, length (charts_of t (events (chart_initializer s))) =
         match document s !! target_id t with
         | Some _ => 1%nat
         | None => 0%nat
         end.
Proof.
  destruct (bound_series s) as (chosen & E & _). rewrite E; cbn [events].
  split.
  - rewrite !charts_of_chart_calls; cbn [target_id]. reflexivity.
  - intros t. rewrite charts_of_chart_calls.
    by destruct (document s !! target_id t).
Qed.
